(** * commitlint.config.js: the commit-message linting configuration

    The repository's only source file assigns one object literal to
    [module.exports].  This development embeds the JavaScript values that
    occur in that literal, the literal itself, and the (trivial) module
    body that a CommonJS loader runs, and proves the structural properties
    of the exported configuration. *)

From Stdlib Require Import ZArith Ascii String.
From stdpp Require Import base gmap sets list strings.

#[local] Set Warnings "-register-all".

Local Open Scope Z_scope.
Local Open Scope string_scope.

(** ** JavaScript values *)

Module JS.

(** The fragment of JavaScript values the literal is built from: integer
    number literals, string literals, array literals, and object literals
    whose property definitions are kept in source order. *)
Inductive value : Type :=
  | VNum (n : Z)
  | VStr (s : string)
  | VArr (elems : list value)
  | VObj (props : list (string * value)).

(** An object literal is evaluated property by property, in source order;
    defining a key that is already present overwrites it. *)
Definition define_prop (m : gmap string value) (kv : string * value)
  : gmap string value := <[kv.1 := kv.2]> m.

Definition obj_map (props : list (string * value)) : gmap string value :=
  foldl define_prop ∅ props.

(** [v[k]] for a string key: defined on objects only. *)
Definition get (v : value) (k : string) : option value :=
  match v with
  | VObj props => obj_map props !! k
  | _ => None
  end.

(** [v[i]] for an index: defined on arrays only. *)
Definition at_index (v : value) (i : nat) : option value :=
  match v with
  | VArr elems => elems !! i
  | _ => None
  end.

(** The string a value holds, when it is a string ([typeof v === 'string']). *)
Definition as_string (v : value) : option string :=
  match v with
  | VStr s => Some s
  | _ => None
  end.

(** The integer a value holds, when it is a number. *)
Definition as_number (v : value) : option Z :=
  match v with
  | VNum n => Some n
  | _ => None
  end.

(** The strings of an array all of whose elements are strings. *)
Definition as_strings (v : value) : option (list string) :=
  match v with
  | VArr elems => mapM as_string elems
  | _ => None
  end.

(** Deep structural comparison of two values, in the manner of
    [assert.deepStrictEqual]: same kind, same scalars, arrays equal element
    by element, objects equal property by property. *)
Fixpoint deep_equal (a b : value) : bool :=
  match a, b with
  | VNum x, VNum y => bool_decide (x = y)
  | VStr x, VStr y => bool_decide (x = y)
  | VArr xs, VArr ys =>
      (fix elems_equal (xs ys : list value) : bool :=
         match xs, ys with
         | [], [] => true
         | x :: xs', y :: ys' => deep_equal x y && elems_equal xs' ys'
         | _, _ => false
         end) xs ys
  | VObj ps, VObj qs =>
      (fix props_equal (ps qs : list (string * value)) : bool :=
         match ps, qs with
         | [], [] => true
         | (k, x) :: ps', (l, y) :: qs' =>
             bool_decide (k = l) && deep_equal x y && props_equal ps' qs'
         | _, _ => false
         end) ps qs
  | _, _ => false
  end.

(** A lowercase ASCII letter, ['a'] (97) to ['z'] (122). *)
Definition is_lower_letter (c : ascii) : bool :=
  let n := Ascii.N_of_ascii c in ((97 <=? n) && (n <=? 122))%N.

(** A lowercase token: at least one character, lowercase letters only. *)
Definition lowercase_token (s : string) : bool :=
  match String.list_ascii_of_string s with
  | [] => false
  | c :: cs => is_lower_letter c && forallb is_lower_letter cs
  end.

(** A CommonJS module object: the loader hands the module body a fresh
    [module] whose [exports] field the body may replace. *)
Record module_obj : Type := Module_obj { exports : value }.

(** [module.exports = v] *)
Definition set_exports (v : value) (m : module_obj) : module_obj :=
  {| exports := v |}.

(** The [module] a loader creates before it runs a file: [exports] is [{}]. *)
Definition fresh_module : module_obj := {| exports := VObj [] |}.

(** The property definitions of an object literal, in source order. *)
Definition props_of (v : value) : list (string * value) :=
  match v with
  | VObj props => props
  | _ => []
  end.

End JS.

(** ** The configuration *)

Module Config.
Import JS.

(** Line 2: [extends: ['@commitlint/config-conventional']]. *)
Definition extends_literal : value :=
  VArr [VStr "@commitlint/config-conventional"].

(** Lines 4-6: the value of ['type-enum']. *)
Definition type_enum_literal : value :=
  VArr [VNum 2; VStr "always"; VArr [
    VStr "feat"; VStr "fix"; VStr "docs"; VStr "style"; VStr "refactor";
    VStr "test"; VStr "chore"
  ]].

(** Line 7: the value of ['subject-case']. *)
Definition subject_case_literal : value :=
  VArr [VNum 2; VStr "always"; VStr "lower-case"].

(** Line 8: the value of ['subject-max-length']. *)
Definition subject_max_length_literal : value :=
  VArr [VNum 2; VStr "always"; VNum 50].

(** Lines 3-9: the [rules] object literal. *)
Definition rules_literal : value :=
  VObj [
    ("type-enum", type_enum_literal);
    ("subject-case", subject_case_literal);
    ("subject-max-length", subject_max_length_literal)
  ].

(** Lines 1-10: the object literal on the right of [module.exports =]. *)
Definition config_literal : value :=
  VObj [
    ("extends", extends_literal);
    ("rules", rules_literal)
  ].

(** The module body: the single statement [module.exports = {...};]. *)
Definition module_body (m : module_obj) : module_obj :=
  set_exports config_literal m.

(** Loading the file: run the body on the loader's fresh module and read
    [module.exports] back. *)
Definition load (_ : unit) : value := exports (module_body fresh_module).

Definition module_exports : value := load ().

(** [module.exports.extends] *)
Definition extends : option value := get module_exports "extends".

(** [module.exports.rules], as the mapping from rule name to bound value. *)
Definition rules : gmap string value :=
  match get module_exports "rules" with
  | Some (VObj props) => obj_map props
  | _ => ∅
  end.

(** [module.exports.rules[name][2]]: the rule-specific parameter. *)
Definition rule_param (name : string) : option value :=
  rules !! name ≫= λ r, at_index r 2.

(** [module.exports.rules[name][0]]: the severity level. *)
Definition rule_severity (name : string) : option value :=
  rules !! name ≫= λ r, at_index r 0.

(** Modelled from the spec: the severity levels the consuming linter
    knows, which this repository only refers to by number: 0 switches a rule
    off, 1 reports a warning, 2 reports an error. *)
Inductive severity : Type := Off | Warning | Error.

Definition severity_code (s : severity) : Z :=
  match s with
  | Off => 0
  | Warning => 1
  | Error => 2
  end.

Definition severity_of_code (n : Z) : option severity :=
  match n with
  | 0 => Some Off
  | 1 => Some Warning
  | 2 => Some Error
  | _ => None
  end.

(** The tokens listed under ['type-enum'], in source order. *)
Definition type_enum_tokens : list string :=
  default [] (rule_param "type-enum" ≫= as_strings).

End Config.

Import JS Config.

(** ** Computed views of the configuration *)

Lemma module_exports_eq : module_exports = config_literal.
Proof. reflexivity. Qed.

Lemma rules_eq :
  rules = <["subject-max-length" := subject_max_length_literal]>
          (<["subject-case" := subject_case_literal]>
          (<["type-enum" := type_enum_literal]> ∅)).
Proof. reflexivity. Qed.

Lemma dom_rules :
  dom rules = ({[ "type-enum"; "subject-case"; "subject-max-length" ]} : gset string).
Proof. rewrite rules_eq, !dom_insert_L, dom_empty_L. set_solver. Qed.

Lemma rules_bound_name (name : string) (v : value) :
  rules !! name = Some v →
  name = "type-enum" ∨ name = "subject-case" ∨ name = "subject-max-length".
Proof.
  intros Hb. apply (elem_of_dom_2 (D := gset string)) in Hb.
  rewrite dom_rules in Hb. set_unfold in Hb. tauto.
Qed.

Lemma type_enum_tokens_eq :
  type_enum_tokens =
    ["feat"; "fix"; "docs"; "style"; "refactor"; "test"; "chore"].
Proof. vm_compute. reflexivity. Qed.

Lemma type_enum_param :
  rule_param "type-enum" = Some (VArr (VStr <$> type_enum_tokens)).
Proof. vm_compute. reflexivity. Qed.

(** ** Structural comparison *)

Lemma deep_equal_refl (v : value) : deep_equal v v = true.
Proof.
  revert v. fix IH 1. intros [n | s | elems | props]; simpl.
  - apply bool_decide_eq_true. reflexivity.
  - apply bool_decide_eq_true. reflexivity.
  - induction elems as [| x xs IHxs]; [reflexivity |].
    rewrite (IH x), IHxs. reflexivity.
  - induction props as [| [k x] ps IHps]; [reflexivity |].
    rewrite (IH x), IHps, bool_decide_eq_true_2 by reflexivity. reflexivity.
Qed.

Lemma severity_of_code_inv (n : Z) (s : severity) :
  severity_of_code n = Some s → n = severity_code s.
Proof.
  destruct n as [| [[]|[]|] |]; simpl; intros [= <-]; reflexivity.
Qed.

Lemma severity_code_range (s : severity) : 0 <= severity_code s <= 2.
Proof. destruct s; simpl; lia. Qed.

Lemma deep_equal_eq (a b : value) : a = b → deep_equal a b = true.
Proof. intros ->. apply deep_equal_refl. Qed.

(** ** Lowercase tokens *)

Lemma is_lower_letter_spec (c : ascii) :
  is_lower_letter c = true ↔ (97 ≤ N_of_ascii c ≤ 122)%N.
Proof.
  unfold is_lower_letter. cbv zeta.
  rewrite andb_true_iff, !N.leb_le. reflexivity.
Qed.

Lemma forallb_lower_spec (cs : list ascii) :
  forallb is_lower_letter cs = true ↔
  Forall (λ c : ascii, (97 ≤ N_of_ascii c ≤ 122)%N) cs.
Proof.
  induction cs as [| c cs IH]; simpl.
  - split; [constructor | reflexivity].
  - rewrite andb_true_iff, Forall_cons, IH, is_lower_letter_spec. reflexivity.
Qed.

Lemma lowercase_token_spec (s : string) :
  lowercase_token s = true ↔
  s ≠ "" ∧
  Forall (λ c : ascii, (97 ≤ N_of_ascii c ≤ 122)%N) (list_ascii_of_string s).
Proof.
  destruct s as [| c s]; unfold lowercase_token; simpl.
  - split; [discriminate | intros [Hne _]; destruct Hne; reflexivity].
  - rewrite <- (forallb_lower_spec (c :: list_ascii_of_string s)). simpl.
    split; [intros H; split; [discriminate | exact H] | intros [_ H]; exact H].
Qed.

Example lowercase_token_rejects_capital : lowercase_token "Feat" = false.
Proof. reflexivity. Qed.

Example lowercase_token_rejects_hyphen : lowercase_token "lower-case" = false.
Proof. reflexivity. Qed.

Example lowercase_token_rejects_empty : lowercase_token "" = false.
Proof. reflexivity. Qed.

(** ** The rules *)

(** C1: [rules] binds ['type-enum'] to a triple whose third component is a
    list of strings that, read as a set, is exactly
    {feat, fix, docs, style, refactor, test, chore}: each of the seven is
    listed, and nothing else is. *)
Theorem type_enum_is_exact_set :
  ∃ (sev qual : value) (toks : list string),
    rules !! "type-enum" = Some (VArr [sev; qual; VArr (VStr <$> toks)]) ∧
    ∀ t : string,
      t ∈ toks ↔
      t ∈ ({[ "feat"; "fix"; "docs"; "style"; "refactor"; "test"; "chore" ]}
            : gset string).
Proof.
  exists (VNum 2), (VStr "always"), type_enum_tokens. split.
  - vm_compute. reflexivity.
  - intros t. rewrite type_enum_tokens_eq. set_unfold. tauto.
Qed.

(** C2: [rules] binds ['subject-case'] to exactly
    [[2, 'always', 'lower-case']]. *)
Theorem subject_case_binding :
  rules !! "subject-case" = Some (VArr [VNum 2; VStr "always"; VStr "lower-case"]).
Proof. vm_compute. reflexivity. Qed.

(** C3: [rules] binds ['subject-max-length'] to exactly [[2, 'always', 50]];
    its rule parameter is the integer 50. *)
Theorem subject_max_length_binding :
  rules !! "subject-max-length" = Some (VArr [VNum 2; VStr "always"; VNum 50]) ∧
  rule_param "subject-max-length" ≫= as_number = Some 50.
Proof. split; vm_compute; reflexivity. Qed.

(** C4: the [extends] field is an array of strings with exactly one
    element, the identifier of the conventional rule set. *)
Theorem extends_single_identifier :
  ∃ ids : list string,
    extends = Some (VArr (VStr <$> ids)) ∧
    extends ≫= as_strings = Some ids ∧
    length ids = 1%nat ∧
    ids = ["@commitlint/config-conventional"].
Proof.
  exists ["@commitlint/config-conventional"].
  repeat split; vm_compute; reflexivity.
Qed.

(** C5: [rules] has exactly three entries, named ['type-enum'],
    ['subject-case'] and ['subject-max-length']; no other name is bound. *)
Theorem rules_exactly_three :
  dom rules = ({[ "type-enum"; "subject-case"; "subject-max-length" ]} : gset string) ∧
  size rules = 3%nat ∧
  ∀ name : string,
    is_Some (rules !! name) ↔
    name = "type-enum" ∨ name = "subject-case" ∨ name = "subject-max-length".
Proof.
  split; [apply dom_rules |]. split; [vm_compute; reflexivity |].
  intros name. rewrite <- (elem_of_dom (D := gset string)), dom_rules.
  set_unfold. tauto.
Qed.

(** C6: every value bound in [rules] is a triple (severity, qualifier,
    parameter) whose severity is a number of the severity enumeration:
    0 (off), 1 (warning) or 2 (error). *)
Theorem rules_are_severity_triples (name : string) (v : value) :
  rules !! name = Some v →
  ∃ (code : Z) (qual : string) (param : value) (s : severity),
    v = VArr [VNum code; VStr qual; param] ∧
    severity_of_code code = Some s ∧
    (code = 0 ∨ code = 1 ∨ code = 2).
Proof.
  intros Hb.
  destruct (rules_bound_name name v Hb) as [-> | [-> | ->]];
    vm_compute in Hb; injection Hb as <-.
  - exists 2, "always",
      (VArr (VStr <$> ["feat"; "fix"; "docs"; "style"; "refactor"; "test"; "chore"])),
      Error.
    repeat split; auto.
  - exists 2, "always", (VStr "lower-case"), Error. repeat split; auto.
  - exists 2, "always", (VNum 50), Error. repeat split; auto.
Qed.

Lemma rules_are_severity_triples_witness :
  rules !! "subject-max-length" = Some subject_max_length_literal ∧
  ∃ (code : Z) (qual : string) (param : value) (s : severity),
    subject_max_length_literal = VArr [VNum code; VStr qual; param] ∧
    severity_of_code code = Some s ∧
    (code = 0 ∨ code = 1 ∨ code = 2).
Proof.
  split.
  - vm_compute. reflexivity.
  - apply (rules_are_severity_triples "subject-max-length").
    vm_compute. reflexivity.
Defined.

(** ** The commit-type enumeration *)

(** C7: every element listed under ['type-enum'] is a string that is a
    lowercase token: not empty, and made of lowercase letters only. *)
Theorem type_enum_tokens_lowercase :
  rule_param "type-enum" = Some (VArr (VStr <$> type_enum_tokens)) ∧
  Forall (λ t : string, lowercase_token t = true) type_enum_tokens ∧
  Forall (λ t : string,
            t ≠ "" ∧
            Forall (λ c : ascii, (97 ≤ N_of_ascii c ≤ 122)%N)
                   (list_ascii_of_string t))
         type_enum_tokens.
Proof.
  split; [apply type_enum_param |]. rewrite type_enum_tokens_eq.
  assert (Hlow : Forall (λ t : string, lowercase_token t = true)
            ["feat"; "fix"; "docs"; "style"; "refactor"; "test"; "chore"])
    by (repeat constructor).
  split; [exact Hlow |].
  eapply Forall_impl; [exact Hlow |].
  intros t Ht. apply lowercase_token_spec. exact Ht.
Qed.

(** The tokens are short: none is longer than eight characters. *)
Lemma type_enum_tokens_short :
  Forall (λ t : string, (String.length t ≤ 8)%nat) type_enum_tokens.
Proof. rewrite type_enum_tokens_eq. repeat constructor. Qed.

(** C9: the seven tokens listed under ['type-enum'] are pairwise distinct. *)
Theorem type_enum_tokens_distinct :
  rule_param "type-enum" = Some (VArr (VStr <$> type_enum_tokens)) ∧
  length type_enum_tokens = 7%nat ∧
  NoDup type_enum_tokens.
Proof.
  split; [apply type_enum_param |]. rewrite type_enum_tokens_eq.
  split; [reflexivity |].
  apply (bool_decide_unpack _). vm_compute. reflexivity.
Qed.

(** C10: the parameter of ['type-enum'] is the list
    [feat, fix, docs, style, refactor, test, chore], in this order. *)
Theorem type_enum_tokens_order :
  rule_param "type-enum" =
    Some (VArr [VStr "feat"; VStr "fix"; VStr "docs"; VStr "style";
                VStr "refactor"; VStr "test"; VStr "chore"]) ∧
  type_enum_tokens =
    ["feat"; "fix"; "docs"; "style"; "refactor"; "test"; "chore"] ∧
  type_enum_tokens !! 0%nat = Some "feat" ∧
  type_enum_tokens !! 6%nat = Some "chore".
Proof. repeat split; vm_compute; reflexivity. Qed.

(** ** Loading *)

(** C8: loading is idempotent.  The module body ignores the module it is
    given, so any two runs export equal (hence deeply equal) objects, and
    running the body a second time changes nothing. *)
Theorem load_idempotent :
  (∀ u1 u2 : unit, load u1 = load u2) ∧
  (∀ u1 u2 : unit, deep_equal (load u1) (load u2) = true) ∧
  (∀ m1 m2 : module_obj, exports (module_body m1) = exports (module_body m2)) ∧
  (∀ m : module_obj, module_body (module_body m) = module_body m).
Proof.
  split; [| split; [| split]].
  - intros [] []. reflexivity.
  - intros [] []. apply deep_equal_refl.
  - intros m1 m2. reflexivity.
  - intros m. reflexivity.
Qed.

(** ** Evaluation of object literals *)

Lemma obj_map_snoc (props : list (string * value)) (kv : string * value) :
  obj_map (props ++ [kv]) = <[kv.1 := kv.2]> (obj_map props).
Proof. unfold obj_map. rewrite foldl_app. reflexivity. Qed.

Lemma obj_map_list_to_map (props : list (string * value)) :
  obj_map props = list_to_map (reverse props).
Proof.
  induction props as [| kv props IH] using rev_ind; [reflexivity |].
  rewrite obj_map_snoc, reverse_snoc, IH. reflexivity.
Qed.

(** When no key is defined twice, the order of the property definitions
    does not matter. *)
Lemma obj_map_perm (ps qs : list (string * value)) :
  NoDup ps.*1 → ps ≡ₚ qs → obj_map ps = obj_map qs.
Proof.
  intros Hnd Hperm. rewrite !obj_map_list_to_map.
  apply list_to_map_proper.
  - rewrite fmap_reverse, reverse_Permutation. exact Hnd.
  - rewrite !reverse_Permutation. exact Hperm.
Qed.

Lemma rules_literal_keys_distinct : NoDup (props_of rules_literal).*1.
Proof. apply (bool_decide_unpack _). vm_compute. reflexivity. Qed.

Lemma config_literal_keys_distinct : NoDup (props_of config_literal).*1.
Proof. apply (bool_decide_unpack _). vm_compute. reflexivity. Qed.

(** ** Further properties of the configuration *)


(** X2: every configured rule is an error-level rule that always applies:
    the bound value has 2 at index 0, ['always'] at index 1, a parameter at
    index 2 and nothing at index 3. *)
Theorem rules_all_error_always (name : string) (v : value) :
  rules !! name = Some v →
  at_index v 0 = Some (VNum 2) ∧
  at_index v 1 = Some (VStr "always") ∧
  is_Some (at_index v 2) ∧
  at_index v 3 = None.
Proof.
  intros Hb.
  destruct (rules_bound_name name v Hb) as [-> | [-> | ->]];
    vm_compute in Hb; injection Hb as <-;
    repeat split; simpl; eauto.
Qed.

Lemma rules_all_error_always_witness :
  rules !! "type-enum" = Some type_enum_literal ∧
  at_index type_enum_literal 0 = Some (VNum 2) ∧
  at_index type_enum_literal 1 = Some (VStr "always") ∧
  is_Some (at_index type_enum_literal 2) ∧
  at_index type_enum_literal 3 = None.
Proof.
  split.
  - vm_compute. reflexivity.
  - apply (rules_all_error_always "type-enum"). vm_compute. reflexivity.
Defined.

(** X3: the three rule definitions can be written in any order: every
    permutation of the property definitions of the [rules] literal
    evaluates to the same mapping. *)
Theorem rules_order_irrelevant (props : list (string * value)) :
  props ≡ₚ props_of rules_literal → obj_map props = rules.
Proof.
  intros Hperm. rewrite rules_eq.
  change (obj_map props = obj_map (props_of rules_literal)).
  symmetry. apply obj_map_perm; [apply rules_literal_keys_distinct |].
  symmetry. exact Hperm.
Qed.

Lemma rules_order_irrelevant_witness :
  [("subject-max-length", subject_max_length_literal);
   ("type-enum", type_enum_literal);
   ("subject-case", subject_case_literal)] ≡ₚ props_of rules_literal ∧
  obj_map [("subject-max-length", subject_max_length_literal);
           ("type-enum", type_enum_literal);
           ("subject-case", subject_case_literal)] = rules.
Proof.
  assert (Hperm :
    [("subject-max-length", subject_max_length_literal);
     ("type-enum", type_enum_literal);
     ("subject-case", subject_case_literal)] ≡ₚ props_of rules_literal).
  { simpl. etrans; [apply perm_swap |]. apply perm_skip, perm_swap. }
  split; [exact Hperm |].
  apply (rules_order_irrelevant _ Hperm).
Defined.

(** X4: [extends] and [rules] can be written in either order: reading any
    key from an object built from a permutation of the top-level property
    definitions gives what reading it from the exported object gives. *)
Theorem config_order_irrelevant (props : list (string * value)) (k : string) :
  props ≡ₚ props_of config_literal →
  get (VObj props) k = get module_exports k.
Proof.
  intros Hperm. rewrite module_exports_eq. unfold get.
  change (obj_map props !! k = obj_map (props_of config_literal) !! k).
  f_equal. symmetry.
  apply obj_map_perm; [apply config_literal_keys_distinct |].
  symmetry. exact Hperm.
Qed.

Lemma config_order_irrelevant_witness :
  [("rules", rules_literal); ("extends", extends_literal)]
    ≡ₚ props_of config_literal ∧
  get (VObj [("rules", rules_literal); ("extends", extends_literal)]) "rules"
    = get module_exports "rules".
Proof.
  assert (Hperm : [("rules", rules_literal); ("extends", extends_literal)]
                    ≡ₚ props_of config_literal)
    by (simpl; apply perm_swap).
  split; [exact Hperm |].
  apply (config_order_irrelevant _ "rules" Hperm).
Defined.

(** X5: every token listed under ['type-enum'] has between three and eight
    characters. *)
Theorem type_enum_tokens_length_bounds :
  rule_param "type-enum" = Some (VArr (VStr <$> type_enum_tokens)) ∧
  Forall (λ t : string, (3 ≤ String.length t ≤ 8)%nat) type_enum_tokens.
Proof.
  split; [apply type_enum_param |]. rewrite type_enum_tokens_eq.
  repeat (constructor; [simpl; lia |]). constructor.
Qed.
